(** * PINN heat-equation notebook: the PDE set-up functions

    A shallow embedding of the code cells of [PINN_Heat_Equation.ipynb]
    that define the initial and boundary conditions ([fun_u_0], [fun_u_b]),
    the periodic source term ([heat_src]), the residual ([fun_residual]) and
    the sampler ([draw_X]).

    Python floats are IEEE binary64 numbers and are modelled by Rocq's
    primitive floats, which are the same numbers with the same rounding.
    Python exceptions are modelled by an error monad.  Arrays carry a shape
    and their entries in row-major order.  The [math] module is a finite map
    from attribute names to values, looked up when the code runs, as Python
    does. *)

From Stdlib Require Import ZArith Floats.
From stdpp Require Import gmap strings list.

Set Warnings "-inexact-float".

(** ** Exceptions and the error monad *)

Inductive exn : Set :=
| AttributeError
| IndexError
| TypeError
| ValueError
| ZeroDivisionError
| OverflowError.

Inductive result (A : Type) : Type :=
| Ok (a : A)
| Raise (e : exn).

Arguments Ok {A} a.
Arguments Raise {A} e.

(** A statement that raises ends the function: what follows it runs only
    on [Ok]. *)
Definition bind {A B} (c : result A) (k : A → result B) : result B :=
  match c with
  | Ok a => k a
  | Raise e => Raise e
  end.

Notation "'let*' x ':=' c 'in' k" := (bind c (fun x => k))
  (at level 10, x name, c at level 100, k at level 200).

(** ** Arrays

    A NumPy array or TensorFlow tensor: its shape and its entries in
    row-major order.  A well-formed array has [numel shape] entries; a
    scalar is the array of shape [[]]. *)

Record ndarray (A : Type) : Type := mk_ndarray {
  shape : list nat;
  data : list A
}.

Arguments mk_ndarray {A} shape data.
Arguments shape {A} _.
Arguments data {A} _.

Definition numel (shp : list nat) : nat := foldr Nat.mul 1%nat shp.

Definition well_formed {A} (x : ndarray A) : Prop :=
  length (data x) = numel (shape x).

(** [s[i]] on a shape tuple: [IndexError] past the end. *)
Definition shape_getitem (shp : list nat) (i : nat) : result nat :=
  match shp !! i with
  | Some n => Ok n
  | None => Raise IndexError
  end.

(** [tf.zeros(shp, dtype=DTYPE)] and [tf.ones(shp, dtype=DTYPE)], with
    [DTYPE = 'float32']: 0 and 1 are the same numbers in float32 and in
    binary64, and so is every float32 entry of an input array. *)
Definition tf_zeros (shp : list nat) : ndarray float :=
  mk_ndarray shp (replicate (numel shp) 0%float).

Definition tf_ones (shp : list nat) : ndarray float :=
  mk_ndarray shp (replicate (numel shp) 1%float).

(** ** Initial and boundary conditions *)

(** [def fun_u_0(x): n = x.shape[0]; return tf.zeros((n,1), dtype=DTYPE)] *)
Definition fun_u_0 {A} (x : ndarray A) : result (ndarray float) :=
  let* n := shape_getitem (shape x) 0 in
  Ok (tf_zeros [n; 1%nat]).

(** [def fun_u_b(x, t): n = x.shape[0]; return tf.zeros((n,1), dtype=DTYPE)];
    [t] is not used, so it may be any object. *)
Definition fun_u_b {A T} (x : ndarray A) (t : T) : result (ndarray float) :=
  let* n := shape_getitem (shape x) 0 in
  Ok (tf_zeros [n; 1%nat]).

(** ** Python numbers *)

(** The numbers a [math] function can hand back: an [int] (unbounded) or a
    [float] (binary64). *)
Inductive number : Type :=
| PyInt (z : Z)
| PyFloat (f : float).

(** [a / b] on floats: Python raises on a zero divisor instead of returning
    an infinity or a NaN. *)
Definition py_truediv (a b : float) : result float :=
  if (b =? 0)%float then Raise ZeroDivisionError else Ok (a / b)%float.

(** [float(z)] for an int [z]: the nearest binary64 number, ties to even;
    [OverflowError] when that is not finite. *)
Definition float_of_int (z : Z) : result float :=
  let f := SF2Prim (binary_normalize prec emax z 0 false) in
  if is_infinity f then Raise OverflowError else Ok f.

(** [a - b] with a float on the left: an int on the right is converted to
    float first. *)
Definition float_sub (a : float) (b : number) : result float :=
  match b with
  | PyFloat f => Ok (a - f)%float
  | PyInt z => let* f := float_of_int z in Ok (a - f)%float
  end.

(** Comparisons of floats; any comparison with a NaN is false. *)
Definition py_ge (a b : float) : bool := (b <=? a)%float.
Definition py_le (a b : float) : bool := (a <=? b)%float.
Definition py_gt (a b : float) : bool := (b <? a)%float.

(** ** The [math] module

    A module is a namespace: attribute access [math.name] looks [name] up
    when the expression is evaluated and raises [AttributeError] when the
    name is not bound.  An attribute is a constant or a function of one
    float. *)

Inductive attr : Type :=
| Constant (v : number)
| Function (f : float → result number).

Definition module : Type := gmap string attr.

Definition getattr (m : module) (name : string) : result attr :=
  match m !! name with
  | Some a => Ok a
  | None => Raise AttributeError
  end.

(** Calling an attribute with one argument; a number is not callable. *)
Definition call (a : attr) (arg : float) : result number :=
  match a with
  | Function f => f arg
  | Constant _ => Raise TypeError
  end.

(** The integer a finite float is rounded to, from its sign, mantissa and
    exponent: [Z.shiftl z e] is [z * 2^e], rounded down when [e < 0]. *)
Definition round_down (s : bool) (m : positive) (e : Z) : Z :=
  Z.shiftl (cond_Zopp s (Zpos m)) e.

Definition round_up (s : bool) (m : positive) (e : Z) : Z :=
  Z.opp (Z.shiftl (Z.opp (cond_Zopp s (Zpos m))) e).

Definition round_zero (s : bool) (m : positive) (e : Z) : Z :=
  cond_Zopp s (Z.shiftl (Zpos m) e).

(** [math.floor], [math.ceil] and [math.trunc] return an int and refuse a
    NaN ([ValueError]) and the infinities ([OverflowError]). *)
Definition to_integral (rnd : bool → positive → Z → Z) (f : float) : result number :=
  match Prim2SF f with
  | S754_nan => Raise ValueError
  | S754_infinity _ => Raise OverflowError
  | S754_zero _ => Ok (PyInt 0)
  | S754_finite s m e => Ok (PyInt (rnd s m e))
  end.

Definition math_floor : float → result number := to_integral round_down.
Definition math_ceil : float → result number := to_integral round_up.
Definition math_trunc : float → result number := to_integral round_zero.
Definition math_fabs (f : float) : result number := Ok (PyFloat (abs f)).

(** Every public name of CPython's [math] module: those of 3.10, the
    notebook's kernel, and the later additions [cbrt], [exp2], [sumprod]
    and [fma]. *)
Definition math_names : list string :=
  [ "acos"; "acosh"; "asin"; "asinh"; "atan"; "atan2"; "atanh"; "cbrt"; "ceil";
    "comb"; "copysign"; "cos"; "cosh"; "degrees"; "dist"; "e"; "erf"; "erfc";
    "exp"; "exp2"; "expm1"; "fabs"; "factorial"; "floor"; "fma"; "fmod";
    "frexp"; "fsum"; "gamma"; "gcd"; "hypot"; "inf"; "isclose"; "isfinite";
    "isinf"; "isnan"; "isqrt"; "lcm"; "ldexp"; "lgamma"; "log"; "log10";
    "log1p"; "log2"; "modf"; "nan"; "nextafter"; "perm"; "pi"; "pow"; "prod";
    "radians"; "remainder"; "sin"; "sinh"; "sqrt"; "sumprod"; "tan"; "tanh";
    "tau"; "trunc"; "ulp" ].

(** The other attributes of a module object ([__name__], [__doc__],
    [__dict__], [__class__], ...) have names that start with two
    underscores. *)
Definition is_dunder (name : string) : bool := String.prefix "__" name.

(** A namespace is a [math] module when it binds none but those names,
    whatever the functions bound to them compute. *)
Definition is_math (m : module) : Prop :=
  ∀ name, is_Some (m !! name) → name ∈ math_names ∨ is_dunder name = true.

(** The members of [math] that round a float, and its constants. *)
Definition math : module :=
  list_to_map
    [ ("ceil", Function math_ceil);
      ("floor", Function math_floor);
      ("trunc", Function math_trunc);
      ("fabs", Function math_fabs);
      ("pi", Constant (PyFloat 0x1.921fb54442d18p+1));
      ("e", Constant (PyFloat 0x1.5bf0a8b145769p+1));
      ("tau", Constant (PyFloat 0x1.921fb54442d18p+2));
      ("inf", Constant (PyFloat infinity));
      ("nan", Constant (PyFloat nan)) ].

(** ** Indexing and truth of arrays *)

(** [x[i]]: the [i]-th slice along the leading axis; a scalar (shape [[]])
    cannot be indexed. *)
Definition getitem {A} (x : ndarray A) (i : nat) : result (ndarray A) :=
  match shape x with
  | [] => Raise IndexError
  | n :: rest =>
      if (i <? n)%nat
      then Ok (mk_ndarray rest (take (numel rest) (drop (i * numel rest) (data x))))
      else Raise IndexError
  end.

(** [x > c] for an array [x] and a Python float [c], entry by entry. *)
Definition array_gt (x : ndarray float) (c : float) : ndarray bool :=
  mk_ndarray (shape x) ((λ v, py_gt v c) <$> data x).

(** [bool(b)] as [if] and [and] take it: the entry of an array with one
    entry; an array with several entries has no truth value; an empty one
    is false (NumPy 1.x, with a deprecation warning). *)
Definition truth (b : ndarray bool) : result bool :=
  match data b with
  | [] => Ok false
  | [v] => Ok v
  | _ :: _ :: _ => Raise ValueError
  end.

(** [p and q] in an [if]: [q] is evaluated only when [p] is true. *)
Definition py_and (p q : result bool) : result bool :=
  let* v := p in if v then q else Ok false.

(** ** The source term *)

Definition period : float := 0.2%float.

(** [point_within_period = t/period - math.cel(t/period)]: the left operand
    first, then the attribute [math.cel], then the argument, the call and
    the subtraction. *)
Definition point_within_period (math : module) (t : float) : result float :=
  let* q := py_truediv t period in
  let* cel := getattr math "cel" in
  let* arg := py_truediv t period in
  let* r := call cel arg in
  float_sub q r.

(** [[
def heat_src(x,t):
    n = x.shape[0]
    point_within_period = t/period - math.cel(t/period)
    if(point_within_period >= 0.0 and point_within_period <= 0.2):
        if((x[0] > 0.5) and (x[1] > -0.5)):
            return tf.ones((n,1), dtype=DTYPE)
        else:
            return tf.zeros((n,1), dtype=DTYPE)
    elif(point_within_period >= 0.5 and point_within_period <= 0.7):
        if((x[0] > -0.5) and (x[1] > 0.5)):
            return tf.ones((n,1), dtype=DTYPE)
        else:
            return tf.zeros((n,1), dtype=DTYPE)
    else:
        return tf.zeros((n,1), dtype=DTYPE)
]] *)
Definition heat_src (math : module) (x : ndarray float) (t : float)
  : result (ndarray float) :=
  let* n := shape_getitem (shape x) 0 in
  let* p := point_within_period math t in
  if py_ge p 0.0 && py_le p 0.2 then
    let* c := py_and (let* x0 := getitem x 0 in truth (array_gt x0 0.5))
                     (let* x1 := getitem x 1 in truth (array_gt x1 (-0.5))) in
    if c then Ok (tf_ones [n; 1%nat]) else Ok (tf_zeros [n; 1%nat])
  else if py_ge p 0.5 && py_le p 0.7 then
    let* c := py_and (let* x0 := getitem x 0 in truth (array_gt x0 (-0.5)))
                     (let* x1 := getitem x 1 in truth (array_gt x1 0.5)) in
    if c then Ok (tf_ones [n; 1%nat]) else Ok (tf_zeros [n; 1%nat])
  else Ok (tf_zeros [n; 1%nat]).

(** ** The residual *)

(** The operands of [+] and [-]: Python ints, floats, or any type with the
    two operators. *)
Class PyArith (A : Type) : Type := {
  py_add : A → A → A;
  py_sub : A → A → A
}.

#[global] Instance float_arith : PyArith float := {|
  py_add := PrimFloat.add;
  py_sub := PrimFloat.sub
|}.

#[global] Instance int_arith : PyArith Z := {|
  py_add := Z.add;
  py_sub := Z.sub
|}.

(** [def fun_residual(x, t, f_x, u_xx, u_yy, u_t, u):
        return f_x + u_xx + u_yy - u_t];
    [+] and [-] associate to the left. *)
Definition fun_residual {X T U A} `{PyArith A}
    (x : X) (t : T) (f_x u_xx u_yy u_t : A) (u : U) : A :=
  py_sub (py_add (py_add f_x u_xx) u_yy) u_t.

(** ** The sampler *)

(** [[
@tf.function
def draw_X(num_samples, a, b):
    dim = a.shape[0]
]]
    The body ends there: the function returns [None]. *)
Definition draw_X {A B} (num_samples : Z) (a : ndarray A) (b : B)
  : result (option (ndarray float)) :=
  let* dim := shape_getitem (shape a) 0 in
  Ok None.

(** The notebook's globals for the bounds:
    [dim = 2], [a = np.zeros((dim))], [b = np.zeros((dim))]. *)
Definition np_zeros (shp : list nat) : ndarray float :=
  mk_ndarray shp (replicate (numel shp) 0%float).

Module Globals.
Definition dim : nat := 2.
Definition a : ndarray float := np_zeros [dim].
Definition b : ndarray float := np_zeros [dim].
End Globals.

(** The rows of a two-dimensional array. *)
Fixpoint chunks {A} (width : nat) (count : nat) (l : list A) : list (list A) :=
  match count with
  | O => []
  | S k => take width l :: chunks width k (drop width l)
  end.

Definition rows {A} (x : ndarray A) : list (list A) :=
  match shape x with
  | [n; d] => chunks d n (data x)
  | _ => []
  end.

(** A point lies in the box [[a, b]] when every coordinate lies between the
    two bounds of that coordinate. *)
Definition in_box (a b p : list float) : Prop :=
  length p = length a ∧ length p = length b ∧
  ∀ i lo hi v, a !! i = Some lo → b !! i = Some hi → p !! i = Some v →
               (lo <=? v)%float = true ∧ (v <=? hi)%float = true.

(** What a sampler owes: a batch of [count] points of the box. *)
Definition samples_of (count : Z) (a b : ndarray float)
    (r : result (option (ndarray float))) : Prop :=
  ∃ pts, r = Ok (Some pts) ∧
         Z.of_nat (length (rows pts)) = count ∧
         Forall (in_box (data a) (data b)) (rows pts).

(** ** Sessions and inputs used below *)

(** The namespace after [math.cel = f] has been run: [math] with the
    missing name bound. *)
Definition math_with_cel (f : float → result number) : module :=
  <["cel" := Function f]> math.

(** [x = np.array([1., 1.])]: one spatial point. *)
Definition point_1_1 : ndarray float := mk_ndarray [2%nat] [1; 1]%float.

(** The two time windows of the source term. *)
Definition first_window (p : float) : bool := py_ge p 0.0 && py_le p 0.2.
Definition second_window (p : float) : bool := py_ge p 0.5 && py_le p 0.7.

(** * Properties *)

Lemma numel_column (n : nat) : numel [n; 1%nat] = n.
Proof. unfold numel; simpl; lia. Qed.

Lemma tf_zeros_well_formed shp : well_formed (tf_zeros shp).
Proof. unfold well_formed, tf_zeros; simpl. apply length_replicate. Qed.

Lemma tf_ones_well_formed shp : well_formed (tf_ones shp).
Proof. unfold well_formed, tf_ones; simpl. apply length_replicate. Qed.

Lemma tf_zeros_column_length n : length (data (tf_zeros [n; 1%nat])) = n.
Proof. rewrite tf_zeros_well_formed. apply numel_column. Qed.

Lemma tf_ones_column_length n : length (data (tf_ones [n; 1%nat])) = n.
Proof. rewrite tf_ones_well_formed. apply numel_column. Qed.

Lemma tf_zeros_all_zero shp : Forall (λ v, v = 0%float) (data (tf_zeros shp)).
Proof. unfold tf_zeros; simpl. apply Forall_replicate. reflexivity. Qed.

Lemma tf_ones_all_one shp : Forall (λ v, v = 1%float) (data (tf_ones shp)).
Proof. unfold tf_ones; simpl. apply Forall_replicate. reflexivity. Qed.

(** Both condition functions return the zero column for every array with a
    leading axis, whatever its size. *)
Lemma fun_u_0_leading {A} (x : ndarray A) n rest :
  shape x = n :: rest → fun_u_0 x = Ok (tf_zeros [n; 1%nat]).
Proof. intros Hs. unfold fun_u_0. rewrite Hs. reflexivity. Qed.

Lemma fun_u_b_leading {A T} (x : ndarray A) (t : T) n rest :
  shape x = n :: rest → fun_u_b x t = Ok (tf_zeros [n; 1%nat]).
Proof. intros Hs. unfold fun_u_b. rewrite Hs. reflexivity. Qed.

(** C5: for an input batch of nonzero size [n], [fun_u_0] and [fun_u_b]
    each return a column of shape [(n, 1)] that has exactly [n] entries,
    every one of them zero. *)
Theorem zero_conditions_column {A T} (x : ndarray A) (t : T) (n : nat) (rest : list nat) :
  shape x = n :: rest →
  n ≠ 0%nat →
  ∃ r, fun_u_0 x = Ok r ∧ fun_u_b x t = Ok r ∧
       shape r = [n; 1%nat] ∧ length (data r) = n ∧
       Forall (λ v, v = 0%float) (data r).
Proof.
  intros Hs _. exists (tf_zeros [n; 1%nat]).
  split; [by eapply fun_u_0_leading|].
  split; [by eapply fun_u_b_leading|].
  split; [reflexivity|].
  split; [apply tf_zeros_column_length|apply tf_zeros_all_zero].
Qed.

Lemma zero_conditions_column_witness :
  ∃ r, fun_u_0 (mk_ndarray [3%nat; 2%nat] [1; 2; 3; 4; 5; 6]%float) = Ok r ∧
       fun_u_b (mk_ndarray [3%nat; 2%nat] [1; 2; 3; 4; 5; 6]%float) 0.5%float = Ok r ∧
       shape r = [3%nat; 1%nat] ∧ length (data r) = 3%nat ∧
       Forall (λ v, v = 0%float) (data r).
Proof.
  apply (zero_conditions_column
           (mk_ndarray [3%nat; 2%nat] [1; 2; 3; 4; 5; 6]%float) 0.5%float 3 [2%nat]).
  - reflexivity.
  - lia.
Defined.

(** ** The error monad *)

Lemma bind_Ok {A B} (c : result A) (k : A → result B) (r : B) :
  bind c k = Ok r → ∃ a, c = Ok a ∧ k a = Ok r.
Proof. destruct c as [a|e]; simpl; [eauto|discriminate]. Qed.

Lemma bind_Raise {A B} (c : result A) (k : A → result B) (e : exn) :
  c = Raise e → bind c k = Raise e.
Proof. intros ->. reflexivity. Qed.

Lemma shape_getitem_leading (shp : list nat) :
  shp ≠ [] → ∃ n, shape_getitem shp 0 = Ok n.
Proof. destruct shp as [|n rest]; [congruence|]. exists n. reflexivity. Qed.

(** ** The [math] namespace has no [cel] *)

Lemma cel_not_math_name : "cel" ∉ math_names.
Proof. apply (bool_decide_unpack _). vm_compute. exact I. Qed.

Lemma math_is_math : is_math math.
Proof.
  intros name [v Hv]. unfold math in Hv.
  apply elem_of_list_to_map_2 in Hv.
  repeat (apply elem_of_cons in Hv as [Hv|Hv];
          [injection Hv as -> _; left;
           apply (bool_decide_unpack _); vm_compute; exact I|]).
  by apply elem_of_nil in Hv.
Qed.

Lemma getattr_cel_unbound (m : module) :
  is_math m → getattr m "cel" = Raise AttributeError.
Proof.
  intros Hm. unfold getattr.
  destruct (m !! "cel") as [v|] eqn:Hv; [|reflexivity].
  destruct (Hm "cel") as [Hn|Hd]; [by exists v| |discriminate Hd].
  by apply cel_not_math_name in Hn.
Qed.

(** The division by [period] never raises: [period] is not zero. *)
Lemma py_truediv_period (t : float) : py_truediv t period = Ok (t / period)%float.
Proof. reflexivity. Qed.

Lemma point_within_period_unbound (m : module) (t : float) :
  is_math m → point_within_period m t = Raise AttributeError.
Proof.
  intros Hm. unfold point_within_period.
  rewrite py_truediv_period. simpl.
  rewrite (getattr_cel_unbound m Hm). reflexivity.
Qed.

Lemma heat_src_unbound (m : module) (x : ndarray float) (t : float) :
  is_math m → shape x ≠ [] → heat_src m x t = Raise AttributeError.
Proof.
  intros Hm Hx. unfold heat_src.
  destruct (shape_getitem_leading (shape x) Hx) as [n ->]. simpl.
  rewrite (point_within_period_unbound m t Hm). reflexivity.
Qed.

(** A scalar [x] has no [x.shape[0]]: the first statement raises. *)
Lemma heat_src_scalar_x (m : module) (x : ndarray float) (t : float) :
  shape x = [] → heat_src m x t = Raise IndexError.
Proof. intros Hx. unfold heat_src. rewrite Hx. reflexivity. Qed.

(** ** The source term with the [math] module as it is *)

(** C2: in a session whose [math] binds only the names the module really
    has, and for every array [x] with a leading axis (a point or a batch of
    points) and every time [t], the phase computation raises
    [AttributeError] at [math.cel], and so does the call of [heat_src]. *)
Theorem heat_src_raises_attribute_error (m : module) (x : ndarray float) (t : float) :
  is_math m →
  shape x ≠ [] →
  point_within_period m t = Raise AttributeError ∧
  heat_src m x t = Raise AttributeError.
Proof.
  intros Hm Hx. split.
  - by apply point_within_period_unbound.
  - by apply heat_src_unbound.
Qed.

Lemma heat_src_raises_attribute_error_witness :
  point_within_period math 0.05 = Raise AttributeError ∧
  heat_src math point_1_1 0.05 = Raise AttributeError.
Proof.
  apply (heat_src_raises_attribute_error math point_1_1 0.05%float).
  - exact math_is_math.
  - discriminate.
Defined.

(** C1: the code computes no phase: for every time [t] the expression
    [t/period - math.cel(t/period)] raises [AttributeError] instead of
    yielding the fractional part of [t/period]; at [t = 0.05], where the
    fractional part is [0.25], [heat_src] raises as well. *)
Theorem phase_is_never_computed :
  (∀ t, point_within_period math t = Raise AttributeError) ∧
  heat_src math point_1_1 0.05 = Raise AttributeError.
Proof.
  split.
  - intros t. apply point_within_period_unbound, math_is_math.
  - apply heat_src_unbound; [exact math_is_math|discriminate].
Qed.

(** C3: on the point [[1, 1]] the code returns neither 0 at [t = 0.05] nor
    1 at [t = 0.0]: both calls raise [AttributeError]. *)
Theorem heat_src_examples_raise :
  heat_src math point_1_1 0.05 = Raise AttributeError ∧
  heat_src math point_1_1 0.0 = Raise AttributeError.
Proof. split; reflexivity. Qed.

(** C6: no phases exist to be compared: at [t = 0.05] and one period later
    the phase computation raises [AttributeError]. *)
Theorem phase_one_period_later_raises :
  point_within_period math 0.05 = Raise AttributeError ∧
  point_within_period math (0.05 + 1 * period) = Raise AttributeError.
Proof. split; reflexivity. Qed.

(** ** The source term once [math.cel] is bound *)

(** With [math.cel = math.floor] the phase is the fractional part, and the
    two examples come out as 0 and 1. *)
Example phase_floor_quarter :
  point_within_period (math_with_cel math_floor) 0.05 = Ok 0.25%float.
Proof. reflexivity. Qed.

Example heat_src_floor_quarter :
  heat_src (math_with_cel math_floor) point_1_1 0.05 = Ok (tf_zeros [2%nat; 1%nat]).
Proof. reflexivity. Qed.

Example heat_src_floor_zero :
  heat_src (math_with_cel math_floor) point_1_1 0.0 = Ok (tf_ones [2%nat; 1%nat]).
Proof. reflexivity. Qed.

(** With [math.cel = math.ceil], the nearest spelling, the phase lies in
    (-1, 0]. *)
Example phase_ceil_quarter :
  point_within_period (math_with_cel math_ceil) 0.05 = Ok (-0.75)%float.
Proof. reflexivity. Qed.

(** In binary64 the fractional part is periodic only up to rounding. *)
Example phase_floor_rounding :
  point_within_period (math_with_cel math_floor) 0.1 = Ok 0.5%float ∧
  point_within_period (math_with_cel math_floor) (0.1 + 1 * period)
    = Ok 0x1.0000000000002p-1%float.
Proof. split; reflexivity. Qed.

(** Whatever the phase is, a call that returns has returned the column of
    zeros or the column of ones over the leading axis of [x]. *)
Lemma heat_src_returns (m : module) (x : ndarray float) (t : float) (r : ndarray float) :
  heat_src m x t = Ok r →
  ∃ n, shape_getitem (shape x) 0 = Ok n ∧
       (r = tf_zeros [n; 1%nat] ∨ r = tf_ones [n; 1%nat]).
Proof.
  unfold heat_src. intros H.
  apply bind_Ok in H as (n & Hn & H).
  apply bind_Ok in H as (p & _ & H).
  exists n. split; [exact Hn|].
  destruct (py_ge p 0 && py_le p 0.2).
  - apply bind_Ok in H as ([] & _ & H); injection H as <-; auto.
  - destruct (py_ge p 0.5 && py_le p 0.7).
    + apply bind_Ok in H as ([] & _ & H); injection H as <-; auto.
    + injection H as <-; auto.
Qed.

(** For one point with two coordinates the branches are the two windows
    with their half-plane conditions, boundaries included. *)
Lemma heat_src_point_policy (m : module) (x0 x1 t p : float) :
  point_within_period m t = Ok p →
  heat_src m (mk_ndarray [2%nat] [x0; x1]) t =
  Ok (if first_window p then
        if py_gt x0 0.5 && py_gt x1 (-0.5)
        then tf_ones [2%nat; 1%nat] else tf_zeros [2%nat; 1%nat]
      else if second_window p then
        if py_gt x0 (-0.5) && py_gt x1 0.5
        then tf_ones [2%nat; 1%nat] else tf_zeros [2%nat; 1%nat]
      else tf_zeros [2%nat; 1%nat]).
Proof.
  intros Hp. unfold heat_src, first_window, second_window. simpl.
  rewrite Hp. simpl.
  destruct (py_ge p 0 && py_le p 0.2).
  - cbn. unfold py_gt.
    destruct (_ <? x0)%float; cbn; [destruct (_ <? x1)%float|]; reflexivity.
  - destruct (py_ge p 0.5 && py_le p 0.7); [|reflexivity].
    cbn. unfold py_gt.
    destruct (_ <? x0)%float; cbn; [destruct (_ <? x1)%float|]; reflexivity.
Qed.

(** C7: every value [heat_src] returns, in any session and for any input,
    has only entries that are exactly 0 or exactly 1. *)
Theorem heat_src_range (m : module) (x : ndarray float) (t : float) (r : ndarray float) :
  heat_src m x t = Ok r →
  Forall (λ v, v = 0%float ∨ v = 1%float) (data r).
Proof.
  intros H. apply heat_src_returns in H as (n & _ & [-> | ->]).
  - eapply Forall_impl; [apply tf_zeros_all_zero|]. simpl. auto.
  - eapply Forall_impl; [apply tf_ones_all_one|]. simpl. auto.
Qed.

Lemma heat_src_range_witness :
  Forall (λ v, v = 0%float ∨ v = 1%float) (data (tf_ones [2%nat; 1%nat])).
Proof.
  apply (heat_src_range (math_with_cel math_floor) point_1_1 0%float).
  reflexivity.
Defined.

(** C10: every value [heat_src] returns is a column of shape [(n, 1)] with
    [n] entries, where [n = x.shape[0]], whichever branch returned it. *)
Theorem heat_src_column_shape (m : module) (x : ndarray float) (t : float) (r : ndarray float) :
  heat_src m x t = Ok r →
  ∃ n, shape_getitem (shape x) 0 = Ok n ∧
       shape r = [n; 1%nat] ∧ length (data r) = n.
Proof.
  intros H. apply heat_src_returns in H as (n & Hn & [-> | ->]);
    exists n; (split; [exact Hn|split; [reflexivity|]]).
  - apply tf_zeros_column_length.
  - apply tf_ones_column_length.
Qed.

Lemma heat_src_column_shape_witness :
  ∃ n, shape_getitem (shape point_1_1) 0 = Ok n ∧
       shape (tf_zeros [2%nat; 1%nat]) = [n; 1%nat] ∧
       length (data (tf_zeros [2%nat; 1%nat])) = n.
Proof.
  apply (heat_src_column_shape (math_with_cel math_ceil) point_1_1 0.05%float).
  reflexivity.
Defined.

(** ** The residual *)

Section Residual.
Context {A : Type} `{PyArith A}.
Context {X T U X' T' U' : Type}.

(** The result is the four-term expression and nothing else. *)
Lemma fun_residual_unfold (x : X) (t : T) (u : U) (f_x u_xx u_yy u_t : A) :
  fun_residual x t f_x u_xx u_yy u_t u
  = py_sub (py_add (py_add f_x u_xx) u_yy) u_t.
Proof. reflexivity. Qed.

(** C9: two calls that agree on [f_x], [u_xx], [u_yy] and [u_t] return
    equal results, however their [x], [t] and [u] differ (in value or in
    type). *)
Theorem fun_residual_ignores_x_t_u
    (x : X) (t : T) (u : U) (x' : X') (t' : T') (u' : U')
    (f_x u_xx u_yy u_t : A) :
  fun_residual x t f_x u_xx u_yy u_t u
  = fun_residual x' t' f_x u_xx u_yy u_t u'.
Proof. reflexivity. Qed.
End Residual.

(** C4: the residual is [f + u_xx + u_yy - u_t], evaluated from the left,
    on any operands with [+] and [-]; on Python ints it is that sum in the
    integers, on floats that sum in binary64; and [f = 1], [u_xx = 2],
    [u_yy = 3], [u_t = 4] give 2. *)
Theorem fun_residual_value :
  (∀ (A : Type) (ops : PyArith A) (X T U : Type) (x : X) (t : T) (u : U)
     (f u_xx u_yy u_t : A),
      fun_residual x t f u_xx u_yy u_t u
      = py_sub (py_add (py_add f u_xx) u_yy) u_t) ∧
  (∀ (X T U : Type) (x : X) (t : T) (u : U) (f u_xx u_yy u_t : Z),
      fun_residual x t f u_xx u_yy u_t u = (f + u_xx + u_yy - u_t)%Z) ∧
  (∀ (X T U : Type) (x : X) (t : T) (u : U) (f u_xx u_yy u_t : float),
      fun_residual x t f u_xx u_yy u_t u = (f + u_xx + u_yy - u_t)%float) ∧
  (∀ (X T U : Type) (x : X) (t : T) (u : U),
      fun_residual x t 1%Z 2%Z 3%Z 4%Z u = 2%Z ∧
      fun_residual x t 1%float 2%float 3%float 4%float u = 2%float).
Proof.
  split; [|split; [|split]].
  - intros. apply fun_residual_unfold.
  - intros. reflexivity.
  - intros. reflexivity.
  - intros. split; reflexivity.
Qed.

(** ** The sampler *)

Lemma draw_X_leading {A B} (num_samples : Z) (a : ndarray A) (b : B) :
  shape a ≠ [] → draw_X num_samples a b = Ok None.
Proof.
  intros Ha. unfold draw_X.
  destruct (shape_getitem_leading (shape a) Ha) as [n ->]. reflexivity.
Qed.

Lemma draw_X_scalar {A B} (num_samples : Z) (a : ndarray A) (b : B) :
  shape a = [] → draw_X num_samples a b = Raise IndexError.
Proof. intros Ha. unfold draw_X. rewrite Ha. reflexivity. Qed.

(** C8: the sampler has no body: for the notebook's bounds [a] and [b] and
    a count of 1 it returns [None], and for no count and no bounds does it
    return a batch of points. *)
Theorem draw_X_never_samples :
  draw_X 1 Globals.a Globals.b = Ok None ∧
  ∀ (count : Z) (a b : ndarray float), ¬ samples_of count a b (draw_X count a b).
Proof.
  split; [reflexivity|].
  intros count a b (pts & Hpts & _).
  destruct (shape a) as [|n rest] eqn:Ha.
  - rewrite (draw_X_scalar count a b Ha) in Hpts. discriminate.
  - rewrite (draw_X_leading count a b) in Hpts; [discriminate|].
    rewrite Ha. discriminate.
Qed.

(** * Further properties of the condition functions *)

(** X1: [fun_u_0] and [fun_u_b] fail on exactly one kind of input, an array
    without axes (a scalar), and then with [IndexError]; no other exception
    ever leaves them. *)
Theorem zero_conditions_fail_only_on_scalars {A T}
    (x : ndarray A) (t : T) (e : exn) :
  (fun_u_0 x = Raise e ↔ shape x = [] ∧ e = IndexError) ∧
  (fun_u_b x t = Raise e ↔ shape x = [] ∧ e = IndexError).
Proof.
  unfold fun_u_0, fun_u_b.
  destruct (shape x) as [|n rest]; simpl; split; split.
  - intros [= <-]. auto.
  - intros [_ ->]. reflexivity.
  - intros [= <-]. auto.
  - intros [_ ->]. reflexivity.
  - discriminate.
  - intros [[=] _].
  - discriminate.
  - intros [[=] _].
Qed.

(** X2: on an empty batch (leading axis of size 0) both functions return
    the empty column: shape [(0, 1)] and no entries. *)
Theorem zero_conditions_empty_batch {A T} (x : ndarray A) (t : T) (rest : list nat) :
  shape x = 0%nat :: rest →
  fun_u_0 x = Ok (mk_ndarray [0%nat; 1%nat] []) ∧
  fun_u_b x t = Ok (mk_ndarray [0%nat; 1%nat] []).
Proof.
  intros Hs. split.
  - rewrite (fun_u_0_leading x 0 rest Hs). reflexivity.
  - rewrite (fun_u_b_leading x t 0 rest Hs). reflexivity.
Qed.

Lemma zero_conditions_empty_batch_witness :
  fun_u_0 (mk_ndarray [0%nat; 2%nat] (@nil float)) = Ok (mk_ndarray [0%nat; 1%nat] []) ∧
  fun_u_b (mk_ndarray [0%nat; 2%nat] (@nil float)) 0.5%float
    = Ok (mk_ndarray [0%nat; 1%nat] []).
Proof.
  apply (zero_conditions_empty_batch
           (mk_ndarray [0%nat; 2%nat] (@nil float)) 0.5%float [2%nat]).
  reflexivity.
Defined.

(** X3: the two functions read nothing of their input but the size of its
    leading axis: inputs that agree on it (whatever their other axes, their
    entries, their entry types and the time) get the same result, and the
    boundary condition equals the initial condition. *)
Theorem zero_conditions_read_leading_axis_only {A A' T T'}
    (x : ndarray A) (x' : ndarray A') (t : T) (t' : T') :
  shape x !! 0%nat = shape x' !! 0%nat →
  fun_u_0 x = fun_u_0 x' ∧
  fun_u_b x t = fun_u_b x' t' ∧
  fun_u_b x t = fun_u_0 x.
Proof.
  intros Hs. unfold fun_u_0, fun_u_b, shape_getitem.
  rewrite Hs. auto.
Qed.

Lemma zero_conditions_read_leading_axis_only_witness :
  fun_u_0 (mk_ndarray [3%nat; 2%nat] [1; 2; 3; 4; 5; 6]%float)
    = fun_u_0 (mk_ndarray [3%nat] [true; false; true]) ∧
  fun_u_b (mk_ndarray [3%nat; 2%nat] [1; 2; 3; 4; 5; 6]%float) 0.5%float
    = fun_u_b (mk_ndarray [3%nat] [true; false; true]) 7%Z ∧
  fun_u_b (mk_ndarray [3%nat; 2%nat] [1; 2; 3; 4; 5; 6]%float) 0.5%float
    = fun_u_0 (mk_ndarray [3%nat; 2%nat] [1; 2; 3; 4; 5; 6]%float).
Proof.
  apply (zero_conditions_read_leading_axis_only
           (mk_ndarray [3%nat; 2%nat] [1; 2; 3; 4; 5; 6]%float)
           (mk_ndarray [3%nat] [true; false; true]) 0.5%float 7%Z).
  reflexivity.
Defined.

(** * Further properties of the source term *)

Lemma tf_ones_ne_zeros_2 : tf_ones [2%nat; 1%nat] ≠ tf_zeros [2%nat; 1%nat].
Proof.
  intros Heq.
  assert (Hb : forallb (λ v, v =? 0)%float (data (tf_ones [2%nat; 1%nat]))
               = forallb (λ v, v =? 0)%float (data (tf_zeros [2%nat; 1%nat])))
    by (rewrite Heq; reflexivity).
  vm_compute in Hb. discriminate.
Qed.

(** An array with two entries or more has no truth value. *)
Lemma truth_several (b : ndarray bool) :
  2 ≤ length (data b) → truth b = Raise ValueError.
Proof.
  unfold truth. destruct (data b) as [|v [|w l]]; simpl; [lia|lia|reflexivity].
Qed.

(** The leading slice of a well-formed batch has the entries of one row. *)
Lemma getitem_leading_row {A} (x : ndarray A) (n : nat) (rest : list nat) :
  shape x = n :: rest → n ≠ 0%nat → well_formed x →
  ∃ row, getitem x 0 = Ok row ∧ shape row = rest ∧
         length (data row) = numel rest.
Proof.
  intros Hs Hn Hwf. unfold getitem. rewrite Hs.
  destruct (Nat.ltb_spec 0 n) as [_|]; [|lia].
  eexists. split; [reflexivity|]. split; [reflexivity|]. simpl.
  rewrite drop_0, length_take.
  unfold well_formed in Hwf. rewrite Hwf, Hs. simpl.
  destruct n as [|k]; [lia|]. simpl. lia.
Qed.

(** The test on the leading slice of a batch with rows of two entries or
    more raises: the comparison yields an array with several entries. *)
Lemma row_test_raises (x : ndarray float) (n : nat) (rest : list nat)
    (c : float) (q : result bool) :
  shape x = n :: rest → n ≠ 0%nat → 2 ≤ numel rest → well_formed x →
  py_and (let* x0 := getitem x 0 in truth (array_gt x0 c)) q = Raise ValueError.
Proof.
  intros Hs Hn Hrest Hwf.
  destruct (getitem_leading_row x n rest Hs Hn Hwf) as (row & -> & _ & Hlen).
  simpl. rewrite truth_several; [reflexivity|].
  unfold array_gt. simpl. rewrite length_fmap. lia.
Qed.

(** X4: when the phase lies in neither window, [heat_src] returns the
    column of zeros over the leading axis of [x] and reads no entry of [x]:
    this holds for every array with a leading axis, also for batches and
    for arrays whose entries [x[0]], [x[1]] could not be tested. *)
Theorem heat_src_outside_windows
    (m : module) (x : ndarray float) (t : float) (n : nat) (p : float) :
  shape_getitem (shape x) 0 = Ok n →
  point_within_period m t = Ok p →
  first_window p = false →
  second_window p = false →
  heat_src m x t = Ok (tf_zeros [n; 1%nat]).
Proof.
  intros Hn Hp H1 H2. unfold heat_src.
  rewrite Hn, Hp. simpl.
  change (py_ge p 0 && py_le p 0.2) with (first_window p).
  change (py_ge p 0.5 && py_le p 0.7) with (second_window p).
  rewrite H1, H2. reflexivity.
Qed.

Lemma heat_src_outside_windows_witness :
  heat_src (math_with_cel math_floor)
    (mk_ndarray [2%nat; 2%nat] [1; 1; 1; 1]%float) 0.05
  = Ok (tf_zeros [2%nat; 1%nat]).
Proof.
  apply (heat_src_outside_windows (math_with_cel math_floor)
           (mk_ndarray [2%nat; 2%nat] [1; 1; 1; 1]%float) 0.05%float 2 0.25%float);
    reflexivity.
Defined.

(** X5: [heat_src] is not vectorised over batches: for a well-formed,
    non-empty batch whose rows have two entries or more, a phase in either
    window makes the call raise [ValueError], because [x[0] > c] is then an
    array of several truth values. *)
Theorem heat_src_batch_in_window_raises
    (m : module) (x : ndarray float) (t : float)
    (n : nat) (rest : list nat) (p : float) :
  shape x = n :: rest →
  n ≠ 0%nat →
  2 ≤ numel rest →
  well_formed x →
  point_within_period m t = Ok p →
  first_window p = true ∨ second_window p = true →
  heat_src m x t = Raise ValueError.
Proof.
  intros Hs Hn Hrest Hwf Hp Hwin. unfold heat_src.
  rewrite Hs, Hp. simpl.
  change (py_ge p 0 && py_le p 0.2) with (first_window p).
  change (py_ge p 0.5 && py_le p 0.7) with (second_window p).
  destruct (first_window p) eqn:H1.
  - rewrite (row_test_raises x n rest _ _ Hs Hn Hrest Hwf). reflexivity.
  - destruct Hwin as [?|H2]; [discriminate|]. rewrite H2.
    rewrite (row_test_raises x n rest _ _ Hs Hn Hrest Hwf). reflexivity.
Qed.

Lemma heat_src_batch_in_window_raises_witness :
  heat_src (math_with_cel math_floor)
    (mk_ndarray [2%nat; 2%nat] [1; 1; 1; 1]%float) 0
  = Raise ValueError.
Proof.
  apply (heat_src_batch_in_window_raises (math_with_cel math_floor)
           (mk_ndarray [2%nat; 2%nat] [1; 1; 1; 1]%float) 0%float
           2 [2%nat] 0%float).
  - reflexivity.
  - lia.
  - vm_compute. lia.
  - reflexivity.
  - reflexivity.
  - left. reflexivity.
Defined.

(** X6: for one point with two coordinates and a phase [p], the call
    returns, and it returns the column of ones exactly when [p] is in the
    first window with [x[0] > 0.5] and [x[1] > -0.5], or [p] is outside the
    first window and in the second with [x[0] > -0.5] and [x[1] > 0.5]. *)
Theorem heat_src_point_ones_iff (m : module) (x0 x1 t p : float) :
  point_within_period m t = Ok p →
  (heat_src m (mk_ndarray [2%nat] [x0; x1]) t = Ok (tf_ones [2%nat; 1%nat]) ∨
   heat_src m (mk_ndarray [2%nat] [x0; x1]) t = Ok (tf_zeros [2%nat; 1%nat])) ∧
  (heat_src m (mk_ndarray [2%nat] [x0; x1]) t = Ok (tf_ones [2%nat; 1%nat]) ↔
   (first_window p = true ∧ py_gt x0 0.5 = true ∧ py_gt x1 (-0.5) = true) ∨
   (first_window p = false ∧ second_window p = true ∧
    py_gt x0 (-0.5) = true ∧ py_gt x1 0.5 = true)).
Proof.
  intros Hp. rewrite (heat_src_point_policy m x0 x1 t p Hp).
  pose proof tf_ones_ne_zeros_2 as Hne.
  assert (Hz : Ok (tf_zeros [2%nat; 1%nat]) ≠ Ok (tf_ones [2%nat; 1%nat])).
  { intros Heq. apply Hne. symmetry.
    exact (f_equal (λ r, match r with Ok a => a | Raise _ => tf_zeros [] end) Heq). }
  generalize dependent (tf_ones [2%nat; 1%nat]).
  generalize dependent (tf_zeros [2%nat; 1%nat]).
  intros zeros ones _ Hz.
  destruct (first_window p), (second_window p),
    (py_gt x0 0.5), (py_gt x1 (-0.5)), (py_gt x0 (-0.5)), (py_gt x1 0.5);
    simpl; (split; [auto|]); split;
    try (intros Heq; by destruct (Hz Heq));
    try (intros _; auto; fail);
    try (intros _; left; auto; fail);
    try (intros _; right; auto; fail);
    try (intros [(? & ? & ?)|(? & ? & ? & ?)]; discriminate).
Qed.

Lemma heat_src_point_ones_iff_witness :
  (heat_src (math_with_cel math_floor) (mk_ndarray [2%nat] [1; 1]%float) 0
     = Ok (tf_ones [2%nat; 1%nat]) ∨
   heat_src (math_with_cel math_floor) (mk_ndarray [2%nat] [1; 1]%float) 0
     = Ok (tf_zeros [2%nat; 1%nat])) ∧
  (heat_src (math_with_cel math_floor) (mk_ndarray [2%nat] [1; 1]%float) 0
     = Ok (tf_ones [2%nat; 1%nat]) ↔
   (first_window 0 = true ∧ py_gt 1 0.5 = true ∧ py_gt 1 (-0.5) = true) ∨
   (first_window 0 = false ∧ second_window 0 = true ∧
    py_gt 1 (-0.5) = true ∧ py_gt 1 0.5 = true)).
Proof.
  apply (heat_src_point_ones_iff (math_with_cel math_floor) 1 1 0 0)%float.
  reflexivity.
Defined.



(** X8: with the [math] module as it is, [heat_src] returns for no input
    at all: it raises [IndexError] when [x] is a scalar (at [x.shape[0]])
    and [AttributeError] for every other [x] (at [math.cel]). *)
Theorem heat_src_never_returns (m : module) (x : ndarray float) (t : float) :
  is_math m →
  heat_src m x t =
  Raise (match shape x with [] => IndexError | _ :: _ => AttributeError end).
Proof.
  intros Hm. destruct (shape x) as [|n rest] eqn:Hs.
  - by apply heat_src_scalar_x.
  - apply heat_src_unbound; [exact Hm|]. rewrite Hs. discriminate.
Qed.

Lemma heat_src_never_returns_witness :
  heat_src math (mk_ndarray [] [1%float]) 0.05 = Raise IndexError.
Proof.
  apply (heat_src_never_returns math (mk_ndarray [] [1%float]) 0.05%float).
  exact math_is_math.
Defined.

(** * Further properties of the residual *)

(** X9: on integer operands the residual vanishes exactly when the heat
    equation [u_t = f + u_xx + u_yy] holds. *)
Theorem fun_residual_zero_iff {X T U : Type} (x : X) (t : T) (u : U)
    (f_x u_xx u_yy u_t : Z) :
  fun_residual x t f_x u_xx u_yy u_t u = 0%Z ↔ u_t = (f_x + u_xx + u_yy)%Z.
Proof. unfold fun_residual. simpl. lia. Qed.

(** X10: on integer operands the residual is linear: the residual of a
    sum is the sum of the residuals, and scaling every operand by [k]
    scales the residual by [k]. *)
Theorem fun_residual_linear {X T U : Type} (x : X) (t : T) (u : U)
    (k f_x u_xx u_yy u_t f_x' u_xx' u_yy' u_t' : Z) :
  fun_residual x t (f_x + f_x')%Z (u_xx + u_xx')%Z (u_yy + u_yy')%Z (u_t + u_t')%Z u
  = (fun_residual x t f_x u_xx u_yy u_t u
     + fun_residual x t f_x' u_xx' u_yy' u_t' u)%Z ∧
  fun_residual x t (k * f_x)%Z (k * u_xx)%Z (k * u_yy)%Z (k * u_t)%Z u
  = (k * fun_residual x t f_x u_xx u_yy u_t u)%Z.
Proof. unfold fun_residual. simpl. lia. Qed.

(** * The source term and the phase *)

(** X11: [heat_src] depends on the time only through the phase: two times
    at which the phase computation has the same outcome (the same value or
    the same exception) give the same result on the same [x]. *)
Theorem heat_src_time_through_phase
    (m : module) (x : ndarray float) (t t' : float) :
  point_within_period m t = point_within_period m t' →
  heat_src m x t = heat_src m x t'.
Proof. intros Hp. unfold heat_src. rewrite Hp. reflexivity. Qed.

Lemma heat_src_time_through_phase_witness :
  heat_src (math_with_cel math_floor) point_1_1 0.05
  = heat_src (math_with_cel math_floor) point_1_1 0.25.
Proof.
  apply (heat_src_time_through_phase (math_with_cel math_floor)
           point_1_1 0.05%float 0.25%float).
  reflexivity.
Defined.
